(** * discordapi.client: the REST dispatcher and the presence update

    A shallow embedding of [DiscordClient] (src/discordapi/client.py):
    [construct_url], [__init__], [update_presence], [send_request] and
    [_send_request].  The client mutates its own attributes and talks to
    the outside (the HTTP transport, the clock, the gateway socket), so the
    methods are functions in a state-and-exception monad over a [world]
    that holds the client object and the history of its interactions. *)

From Stdlib Require Import ZArith Ascii String List Lia.
From stdpp Require Import base option list strings gmap pretty.

Import ListNotations.
Open Scope string_scope.
Open Scope Z_scope.
Open Scope list_scope.

Set Warnings "-register-all".

(** ** Python values *)

(** Python's [int] and [float], with the operations the client performs
    on them: [+], [*], the literals and the test against zero of a
    condition.  [time.time()] is a float and [retry_after] is an int or a
    float: nothing proved below depends on how [+] and [*] round. *)
Class Number (number : Type) := {
  num_add : number -> number -> number;
  num_mul : number -> number -> number;
  num_of_Z : Z -> number;
  num_is_zero : number -> bool
}.

Section Values.

Context {number : Type}.

(** What [json.loads] returns: [None], [bool], [int]/[float], [str],
    [list] and [dict] (a dict as the list of its items). *)
Inductive json : Type :=
| JNone
| JBool (b : bool)
| JNum (x : number)
| JStr (s : string)
| JList (l : list json)
| JDict (items : list (string * json)).

(** The arguments the client's methods accept.  [EMPTY] is the sentinel of
    const.py that marks a field as absent; a [str] is held as its UTF-8
    text, so that [str.encode()] only changes the tag to [PBytes]. *)
Inductive pyval : Type :=
| EMPTY
| PNone
| PBool (b : bool)
| PNum (x : number)
| PStr (s : string)
| PBytes (b : string)
| PList (l : list pyval)
| PTuple (l : list pyval)
| PDict (items : list (string * pyval)).

(** A response object of urllib, by what the client observes of it:
    [res.status] (or [res.getstatus()] on an object without the attribute),
    [res.read()] and [res.headers.get(name)]. *)
Record Response := {
  status : Z;
  read : string;
  headers_get : string -> option string
}.

(** [Request(url, data, req_headers, method=method)]. *)
Record Request := {
  req_url : string;
  req_data : pyval;
  req_headers : gmap string string;
  req_method : string
}.

(** What [urlopen(req)] does: it returns a response, raises [HTTPError]
    (itself a response object), or raises something else, which
    [_send_request] does not catch. *)
Inductive transport : Type :=
| Returned (res : Response)
| RaisedHTTPError (e : Response)
| RaisedURLError.

Inductive exn : Type :=
| DiscordHTTPError (code message : json) (res : Response)
| TypeError
| KeyError (key : string)
| JSONDecodeError
| URLError
| RecursionError.

(** Modelled from the spec: the gateway of gateway.py is not among the
    sources.  An outbound frame is the envelope of section 6; for the
    frames the client builds only [op] and [d] are set, [d] being the
    named fields. *)
Record payload := {
  op : Z;
  d : list (string * pyval)
}.

(** Everything the client does to the outside, in the order it does it. *)
Inductive event : Type :=
| EvCheck (route : string)
| EvUrlopen (req : Request)
| EvSetLimit (key : string) (limit : number)
| EvRegisterBucket (route bucket : string)
| EvSend (data : payload).

End Values.

Arguments json : clear implicits.
Arguments pyval : clear implicits.
Arguments Request : clear implicits.
Arguments exn : clear implicits.
Arguments payload : clear implicits.
Arguments event : clear implicits.

(** ** What the client imports *)

(** Modelled from the spec: the RateLimitHandler of ratelimit.py is not
    among the sources.  Section 4.2 gives its four operations; the client
    only depends on the answer of [is_in_bucket_map], so the handler's
    state is left abstract.  [new_handler] is [RateLimitHandler()].
    Blocking in [check] is time passing, which the clock accounts for. *)
Class RateLimitHandler (number H : Type) := {
  new_handler : H;
  check : string -> H -> H;
  set_limit : string -> number -> H -> H;
  is_in_bucket_map : string -> H -> bool;
  register_bucket : string -> string -> H -> H
}.

(** const.py is not among the sources: its constants are parameters, next
    to the library functions [urllib.request.urljoin], [json.loads] and
    [json.dumps] on a dict ([None] when they raise). *)
Class Library (number : Type) := {
  API_URL : string;
  LIB_NAME : string;
  LIB_VER : string;
  LIB_URL : string;
  urljoin : string -> string -> string;
  json_loads : string -> option (json number);
  json_dumps : list (string * pyval number) -> option string
}.

(** The outside.  [urlopen k req] is what the transport does with [req]
    when [k] requests were issued before it; [time_time k] is what
    [time.time()] returns when the history holds [k] events. *)
Class Outside (number : Type) := {
  urlopen : nat -> Request number -> transport;
  time_time : nat -> number
}.

Section Client.

Context {number : Type} {number_ops : Number number}.
Context {handler : Type} {handler_ops : RateLimitHandler number handler}.
Context {library : Library number} {outside : Outside number}.

#[local] Abbreviation json := (json number).
#[local] Abbreviation pyval := (pyval number).
#[local] Abbreviation Request := (Request number).
#[local] Abbreviation exn := (exn number).
#[local] Abbreviation payload := (payload number).
#[local] Abbreviation event := (event number).

(** The attributes [__init__] sets on the client. *)
Record DiscordClient := {
  headers : gmap string string;
  _activities : list pyval;
  ratelimit_handler : handler
}.

Record world := {
  self : DiscordClient;
  history : list event
}.

(** ** The monad: state and exceptions *)

(** A call ends by returning or by raising. *)
Inductive outcome (A : Type) : Type :=
| Return (a : A)
| Raise (e : exn).
Arguments Return {A} a.
Arguments Raise {A} e.

Definition M (A : Type) : Type := world -> outcome A * world.

Definition ret {A} (a : A) : M A := fun w => (Return a, w).

Definition bind {A B} (m : M A) (k : A -> M B) : M B :=
  fun w => match m w with
           | (Return a, w') => k a w'
           | (Raise e, w') => (Raise e, w')
           end.

Definition raise {A} (e : exn) : M A :=
  fun w => (Raise e, w).

Notation "x <- m ;; k" := (bind m (fun x => k))
  (at level 100, m at next level, right associativity).
Notation "m ;;; k" := (bind m (fun _ => k))
  (at level 100, right associativity).

(** An expression that may raise. *)
Definition lift {A} (r : exn + A) : M A :=
  match r with inl e => raise e | inr a => ret a end.

Definition emit (ev : event) : M unit :=
  fun w => (Return tt, {| self := self w; history := history w ++ [ev] |}).

Definition get_self : M DiscordClient :=
  fun w => (Return (self w), w).

Definition put_self (c : DiscordClient) : M unit :=
  fun w => (Return tt, {| self := c; history := history w |}).

(** The requests among a history, oldest first. *)
Fixpoint requests (h : list event) : list Request :=
  match h with
  | [] => []
  | EvUrlopen req :: h' => req :: requests h'
  | _ :: h' => requests h'
  end.

Definition now : M number :=
  fun w => (Return (time_time (length (history w))), w).

(** Modelled from the spec: [DiscordGateway.send] of gateway.py, which
    writes a framed control message to the connection. *)
Definition send (data : payload) : M unit := emit (EvSend data).

(** Modelled from the spec: the opcode of section 6, Presence Update(3). *)
Definition PRESENCE_UPDATE : Z := 3.

(** Modelled from the spec: [clear_postdata] of util.py omits the fields
    marked absent. *)
Definition clear_postdata (postdata : list (string * pyval))
  : list (string * pyval) :=
  List.filter (fun kv => match kv.2 with EMPTY => false | _ => true end)
              postdata.

(** Modelled from the spec: [_get_payload] of gateway.py, the spec's
    buildPayload, assembles the envelope from the named fields, omitting
    those marked absent. *)
Definition _get_payload (opcode : Z) (fields : list (string * pyval))
  : payload :=
  {| op := opcode; d := clear_postdata fields |}.

(** The four calls on [self.ratelimit_handler]. *)
Definition with_handler (f : handler -> handler) : M unit :=
  c <- get_self ;;
  put_self {| headers := headers c; _activities := _activities c;
              ratelimit_handler := f (ratelimit_handler c) |}.

Definition ratelimit_check (route : string) : M unit :=
  emit (EvCheck route) ;;; with_handler (check route).

Definition ratelimit_set_limit (key : string) (limit : number) : M unit :=
  emit (EvSetLimit key limit) ;;; with_handler (set_limit key limit).

Definition ratelimit_is_in_bucket_map (route : string) : M bool :=
  c <- get_self ;; ret (is_in_bucket_map route (ratelimit_handler c)).

Definition ratelimit_register_bucket (route bucket : string) : M unit :=
  emit (EvRegisterBucket route bucket) ;;;
  with_handler (register_bucket route bucket).

(** ** Python expressions on decoded JSON *)

Fixpoint dict_get {A : Type} (key : string) (items : list (string * A))
  : option A :=
  match items with
  | [] => None
  | (k, v) :: rest => if String.eqb k key then Some v else dict_get key rest
  end.

(** [o[key]] for a string [key]: only a dict can be subscripted by it. *)
Definition getitem (o : json) (key : string) : exn + json :=
  match o with
  | JDict items =>
      match dict_get key items with
      | Some v => inr v
      | None => inl (KeyError key)
      end
  | _ => inl TypeError
  end.

(** [t + v] for a float [t]. *)
Definition add_float (t : number) (v : json) : exn + number :=
  match v with
  | JNum x => inr (num_add t x)
  | JBool b => inr (num_add t (num_of_Z (if b then 1 else 0)))
  | _ => inl TypeError
  end.

(** Truth value of [v] in a condition. *)
Definition truthy (v : json) : bool :=
  match v with
  | JNone => false
  | JBool b => b
  | JNum x => negb (num_is_zero x)
  | JStr s => negb (String.eqb s EmptyString)
  | JList l => match l with [] => false | _ => true end
  | JDict items => match items with [] => false | _ => true end
  end.

(** ** client.py *)

Definition construct_url (baseurl endpoint : string) : string :=
  let endpoint :=
    match endpoint with
    | String "/"%char rest => rest
    | _ => endpoint
    end in
  urljoin baseurl endpoint.

Definition __init__ (token : string) : DiscordClient :=
  {| headers :=
       {[ "User-Agent" := LIB_NAME +:+ " (" +:+ LIB_URL +:+ ", " +:+ LIB_VER
                            +:+ ")";
          "Authorization" := "Bot " +:+ token;
          "Content-Type" := "application/json" ]};
     _activities := [];
     ratelimit_handler := new_handler |}.

(** [self._activities = activities]. *)
Definition set_activities (activities : list pyval) : M unit :=
  c <- get_self ;;
  put_self {| headers := headers c; _activities := activities;
              ratelimit_handler := ratelimit_handler c |}.

(** A list becomes a tuple, a value that is neither is wrapped in one, and
    [None] leaves the stored tuple as it is. *)
Definition update_presence (activities status afk since : pyval) : M unit :=
  since <- match since with
           | PNone => t <- now ;; ret (PNum (num_mul t (num_of_Z 1000)))
           | _ => ret since
           end ;;
  match activities with
  | PNone => ret tt
  | PList l => set_activities l
  | PTuple l => set_activities l
  | _ => set_activities [activities]
  end ;;;
  c <- get_self ;;
  let data := _get_payload PRESENCE_UPDATE
                [("activities", PTuple (_activities c)); ("status", status);
                 ("afk", afk); ("since", since)] in
  let data := {| op := op data; d := clear_postdata (d data) |} in
  send data.

(** [req_headers] is the client's own dictionary, not a copy of it: what
    [update] merges into it stays in [self.headers]. *)
Definition _send_request (method route : string) (data : pyval)
    (baseurl : string) (headers0 : option (gmap string string))
  : M (Response * bool) :=
  let url := construct_url API_URL route in
  data <- match data with
          | PDict items =>
              match json_dumps items with
              | Some s => ret (PStr s)
              | None => raise TypeError
              end
          | _ => ret data
          end ;;
  let data := match data with PStr s => PBytes s | _ => data end in
  c <- get_self ;;
  let req_headers := match headers0 with
                     | Some h => h ∪ headers c
                     | None => headers c
                     end in
  put_self {| headers := req_headers; _activities := _activities c;
              ratelimit_handler := ratelimit_handler c |} ;;;
  let req := {| req_url := url; req_data := data;
                req_headers := req_headers; req_method := method |} in
  fun w =>
    let k := length (requests (history w)) in
    (emit (EvUrlopen req) ;;;
     match urlopen k req with
     | Returned res => ret (res, false)
     | RaisedHTTPError e => ret (e, true)
     | RaisedURLError => raise URLError
     end) w.

(** The retry on a 429 is a nested call, and nothing in [send_request]
    bounds the nesting: the interpreter does.  [depth] is the number of
    nested calls of [send_request] that still fit under its recursion
    limit; a call that does not fit raises [RecursionError] instead of
    running.  The frames of the other calls are not counted.  The
    [baseurl] and the [expected_code] arguments are [None] or a value. *)
Fixpoint send_request (depth : nat) (method route : string) (data : pyval)
    (expected_code : option Z) (raise_at_exc : bool)
    (baseurl : option string) (headers0 : option (gmap string string))
  : M json :=
  match depth with
  | O => raise RecursionError
  | S depth' =>
      let baseurl := match baseurl with None => API_URL | Some b => b end in
      ratelimit_check route ;;;
      res_exc <- _send_request method route data baseurl headers0 ;;
      let res := res_exc.1 in
      let exc := res_exc.2 in
      let code := status res in
      let rawdata := read res in
      resdata <- match rawdata with
                 | EmptyString => ret JNone
                 | _ => match json_loads rawdata with
                        | Some v => ret v
                        | None => raise JSONDecodeError
                        end
                 end ;;
      if code =? 429 then
        t <- now ;;
        retry_after <- lift (getitem resdata "retry_after") ;;
        limit <- lift (add_float t retry_after) ;;
        global <- lift (getitem resdata "global") ;;
        let _route := if truthy global then "global" else route in
        ratelimit_set_limit _route limit ;;;
        send_request depth' method route data expected_code raise_at_exc
                     (Some baseurl) headers0
      else
        match headers_get res "X-RateLimit-Bucket" with
        | Some bucket =>
            known <- ratelimit_is_in_bucket_map route ;;
            if known then ret tt else ratelimit_register_bucket route bucket
        | None => ret tt
        end ;;;
        if raise_at_exc
           && ((match expected_code with
                | Some expected => negb (code =? expected)
                | None => false
                end) || exc)
        then
          code_ <- lift (getitem resdata "code") ;;
          message <- lift (getitem resdata "message") ;;
          raise (DiscordHTTPError code_ message res)
        else ret resdata
  end.

(** ** Vocabulary of the properties *)

(** [req_headers.update(headers)] on the client's own dictionary. *)
Definition merged (headers0 : option (gmap string string))
    (own : gmap string string) : gmap string string :=
  match headers0 with
  | Some h => h ∪ own
  | None => own
  end.

(** The body handed to [Request]: a dict is dumped, a str is encoded;
    there is none when [json.dumps] raises. *)
Definition dumped (data : pyval) : option pyval :=
  match data with
  | PDict items =>
      match json_dumps items with
      | Some s => Some (PBytes s)
      | None => None
      end
  | PStr s => Some (PBytes s)
  | _ => Some data
  end.

(** The request a call issues for the body [body] when the client is
    [c]. *)
Definition request_of (method route : string) (body : pyval)
    (headers0 : option (gmap string string)) (c : DiscordClient) : Request :=
  {| req_url := construct_url API_URL route;
     req_data := body;
     req_headers := merged headers0 (headers c);
     req_method := method |}.

(** The pair [(res, exc)] of [_send_request], when there is one. *)
Definition response_of (t : transport) : option (Response * bool) :=
  match t with
  | Returned res => Some (res, false)
  | RaisedHTTPError e => Some (e, true)
  | RaisedURLError => None
  end.

(** [resdata]: [None] for an empty body, else what [json.loads] gives. *)
Definition decoded (res : Response) : option json :=
  match read res with
  | EmptyString => Some JNone
  | rawdata => json_loads rawdata
  end.



(** The world after the check alone; after the check and the request of
    one attempt; after [set_limit]; and after [register_bucket]. *)
Definition checked (route : string) (w : world) : world :=
  {| self := {| headers := headers (self w);
                _activities := _activities (self w);
                ratelimit_handler := check route (ratelimit_handler (self w)) |};
     history := history w ++ [EvCheck route] |}.

Definition sent (route : string) (req : Request) (w : world) : world :=
  {| self := {| headers := req_headers req;
                _activities := _activities (self w);
                ratelimit_handler := check route (ratelimit_handler (self w)) |};
     history := history w ++ [EvCheck route; EvUrlopen req] |}.

Definition limited (key : string) (limit : number) (w : world) : world :=
  {| self := {| headers := headers (self w);
                _activities := _activities (self w);
                ratelimit_handler :=
                  set_limit key limit (ratelimit_handler (self w)) |};
     history := history w ++ [EvSetLimit key limit] |}.

Definition registered (route bucket : string) (w : world) : world :=
  {| self := {| headers := headers (self w);
                _activities := _activities (self w);
                ratelimit_handler :=
                  register_bucket route bucket (ratelimit_handler (self w)) |};
     history := history w ++ [EvRegisterBucket route bucket] |}.

(** [(expected_code is not None and code != expected_code) or exc]. *)
Definition failed (expected_code : option Z) (code : Z) (exc : bool) : bool :=
  match expected_code with
  | Some expected => negb (code =? expected)
  | None => false
  end || exc.

(** The events of a call on [route] that issues [req]: attempts, each a
    check and then the request; a throttled attempt sets a limit and is
    followed by the next one, the last one may register a bucket. *)
Inductive attempts (route : string) (req : Request) : list event -> Prop :=
| attempts_none : attempts route req []
| attempts_last : attempts route req [EvCheck route; EvUrlopen req]
| attempts_registered bucket :
    attempts route req
      [EvCheck route; EvUrlopen req; EvRegisterBucket route bucket]
| attempts_retry key limit rest :
    attempts route req rest ->
    attempts route req
      (EvCheck route :: EvUrlopen req :: EvSetLimit key limit :: rest).

End Client.

Arguments Return {number A} a.
Arguments Raise {number A} e.

(** ** guild.py *)

(** Python built-ins the guild's methods use: [str_of v] is [str(v)], as
    an f-string formats a value that is not a str, a bool or [None];
    [num_eqb_Z x z] is [x == z] for a number and an int literal;
    [str_chars s] is the characters of a str, as iterating it yields
    them. *)
Class Builtins (number : Type) := {
  str_of : pyval number -> string;
  num_eqb_Z : number -> Z -> bool;
  str_chars : string -> list string
}.

(** Modelled from the spec: dictobject.py is not among the sources.  A
    [Guild] takes its attributes from the raw data; the methods embedded
    here read [self.id] only. *)
Record Guild {number : Type} := {
  guild_id : pyval number
}.
Arguments Guild : clear implicits.

(** A [member] argument: a [Member] object, of which the methods read
    [member.user.id] only (member.py is not among the sources), or any
    other value. *)
Inductive member_arg {number : Type} : Type :=
| AMember (user_id : pyval number)
| ANotMember (v : pyval number).
Arguments member_arg : clear implicits.

(** Modelled from the spec: the entity constructor of member.py, which
    is not among the sources: [Member(client, guild, raw)] builds a
    handle from raw JSON, or raises. *)
Class Entities (number : Type) := {
  member : Type;
  Member : Guild number -> json number -> exn number + member
}.

Section GuildMethods.

Context {number : Type} {number_ops : Number number}.
Context {handler : Type} {handler_ops : RateLimitHandler number handler}.
Context {library : Library number} {outside : Outside number}.
Context {builtins : Builtins number} {entities : Entities number}.

#[local] Abbreviation json := (json number).
#[local] Abbreviation pyval := (pyval number).
#[local] Abbreviation exn := (exn number).
#[local] Abbreviation M := (M (number := number) (handler := handler)).

(** [f"{v}"]. *)
Definition py_str (v : pyval) : string :=
  match v with
  | PStr s => s
  | PNone => "None"
  | PBool true => "True"
  | PBool false => "False"
  | _ => str_of v
  end.

(** [s[:-1]].  The endpoints it is applied to end in a question mark or
    an ampersand, so that the last character is the last byte. *)
Fixpoint drop_last (s : string) : string :=
  match s with
  | EmptyString => EmptyString
  | String c rest =>
      match rest with
      | EmptyString => EmptyString
      | _ => String c (drop_last rest)
      end
  end.

(** What [for x in v] runs over: the items of a list, the keys of a
    dict, the characters of a str; the other values are not iterable. *)
Definition iterate (v : json) : exn + list json :=
  match v with
  | JList l => inr l
  | JDict items => inr (map (fun kv => JStr kv.1) items)
  | JStr s => inr (map JStr (str_chars s))
  | _ => inl TypeError
  end.

(** A list comprehension whose element expression may raise. *)
Fixpoint comprehension {A B : Type} (f : A -> exn + B) (l : list A)
  : exn + list B :=
  match l with
  | [] => inr []
  | x :: rest =>
      match f x with
      | inl e => inl e
      | inr y =>
          match comprehension f rest with
          | inl e => inl e
          | inr ys => inr (y :: ys)
          end
      end
  end.

(** [if isinstance(member, Member): member = member.user.id]. *)
Definition member_id (m : member_arg number) : pyval :=
  match m with
  | AMember user_id => user_id
  | ANotMember v => v
  end.

(** Modelled from the spec: exceptions.py is not among the sources;
    [e.code] is the code the error was built with.  [e.code == 404]. *)
Definition code_is_404 (code : json) : bool :=
  match code with
  | JNum x => num_eqb_Z x 404
  | _ => false
  end.

(** The methods call [self.client.send_request] with its defaults;
    [depth] is passed on to it. *)
Definition get_ban (depth : nat) (self_ : Guild number)
    (m : member_arg number) : M json :=
  let m := member_id m in
  fun w =>
    match send_request depth "GET"
            ("/guilds/" +:+ py_str (guild_id self_) +:+ "/bans/"
             +:+ py_str m)
            PNone None true (Some API_URL) None w with
    | (Raise (DiscordHTTPError code message res), w') =>
        if code_is_404 code then (Return (JBool false), w')
        else (Raise (DiscordHTTPError code message res), w')
    | other => other
    end.

Definition list_members (depth : nat) (self_ : Guild number)
    (limit after : pyval) : M (list member) :=
  let postdata := clear_postdata [("limit", limit); ("after", after)] in
  let endpoint := "/guilds/" +:+ py_str (guild_id self_) +:+ "/members?" in
  let endpoint :=
    fold_left (fun endpoint kv =>
                 endpoint +:+ kv.1 +:+ "=" +:+ py_str kv.2 +:+ "&")
              postdata endpoint in
  let endpoint := drop_last endpoint in
  bind (send_request depth "GET" endpoint PNone None true (Some API_URL) None)
       (fun members =>
          bind (lift (iterate members))
               (fun members => lift (comprehension (Member self_) members))).

Definition search_members (depth : nat) (self_ : Guild number)
    (query limit : pyval) : M (list member) :=
  let postdata := clear_postdata [("query", query); ("limit", limit)] in
  let endpoint :=
    "/guilds/" +:+ py_str (guild_id self_) +:+ "/members/search?" in
  let endpoint :=
    fold_left (fun endpoint kv =>
                 endpoint +:+ kv.1 +:+ "=" +:+ py_str kv.2 +:+ "&")
              postdata endpoint in
  let endpoint := drop_last endpoint in
  bind (send_request depth "GET" endpoint PNone None true (Some API_URL) None)
       (fun members =>
          bind (lift (iterate members))
               (fun members => lift (comprehension (Member self_) members))).

(** *** Vocabulary of the guild's properties *)

(** The query string of a list of parameters: nothing for none of them,
    else a question mark and the [key=value] pairs with ampersands
    between them. *)
Fixpoint pairs_joined (items : list (string * pyval)) : string :=
  match items with
  | [] => EmptyString
  | [kv] => kv.1 +:+ "=" +:+ py_str kv.2
  | kv :: rest => kv.1 +:+ "=" +:+ py_str kv.2 +:+ "&" +:+ pairs_joined rest
  end.

Definition query_string (items : list (string * pyval)) : string :=
  match items with
  | [] => EmptyString
  | _ => "?" +:+ pairs_joined items
  end.



End GuildMethods.


(** ** A concrete platform, to run the client on *)

Module Mock.

#[export] Instance Z_number : Number Z := {
  num_add := Z.add;
  num_mul := Z.mul;
  num_of_Z := fun z => z;
  num_is_zero := Z.eqb 0
}.

(** Modelled from the spec: the Governor of section 4.2, with the
    RouteBucketMap, the buckets' [reset_at] (none while no limit is known)
    and the GlobalLimit of section 3. *)
Record Governor := {
  bucket_map : gmap string string;
  buckets : gmap string (option Z);
  global_limit : option Z
}.

#[export] Instance Governor_handler : RateLimitHandler Z Governor := {
  new_handler := {| bucket_map := ∅; buckets := ∅; global_limit := None |};
  check := fun _ g => g;
  set_limit := fun key reset_at g =>
    if String.eqb key "global"
    then {| bucket_map := bucket_map g; buckets := buckets g;
            global_limit := Some reset_at |}
    else {| bucket_map := bucket_map g;
            buckets := <[default key (bucket_map g !! key) := Some reset_at]>
                         (buckets g);
            global_limit := global_limit g |};
  is_in_bucket_map := fun route g =>
    bool_decide (is_Some (bucket_map g !! route));
  register_bucket := fun route bucket_id g =>
    {| bucket_map := <[route := bucket_id]> (bucket_map g);
       buckets := match buckets g !! bucket_id with
                  | Some _ => buckets g
                  | None => <[bucket_id := None]> (buckets g)
                  end;
       global_limit := global_limit g |}
}.

(** The bodies the mock servers send, with what they decode to. *)
Definition body_429 : string := "{'retry_after': 2, 'global': false}".
Definition body_user : string := "{'id': '123', 'username': 'x'}".
Definition body_error : string := "{'code': 10013, 'message': 'Unknown User'}".

#[export] Instance mock_library : Library Z := {
  API_URL := "https://discord.com/api/v9/";
  LIB_NAME := "NicoBot";
  LIB_VER := "0.1";
  LIB_URL := "https://example.org/nicobot";
  urljoin := fun base url => base +:+ url;
  json_loads := fun s =>
    if String.eqb s body_429
    then Some (JDict [("retry_after", JNum 2); ("global", JBool false)])
    else if String.eqb s body_user
    then Some (JDict [("id", JStr "123"); ("username", JStr "x")])
    else if String.eqb s body_error
    then Some (JDict [("code", JNum 10013); ("message", JStr "Unknown User")])
    else None;
  json_dumps := fun items =>
    if forallb (fun kv => match kv.2 with
                          | EMPTY | PBytes _ => false
                          | _ => true
                          end) items
    then Some "{...}" else None
}.

Definition no_headers : string -> option string := fun _ => None.

Definition bucket_header (b : string) : string -> option string :=
  fun name => if String.eqb name "X-RateLimit-Bucket" then Some b else None.

Definition res_429 : Response :=
  {| status := 429; read := body_429; headers_get := no_headers |}.

Definition res_user : Response :=
  {| status := 200; read := body_user; headers_get := no_headers |}.

Definition clock (k : nat) : Z := 1000 + Z.of_nat k.

(** A server that throttles the first [n] requests and then answers. *)
Definition throttling (n : nat) : Outside Z := {|
  urlopen := fun k _ => if (k <? n)%nat then RaisedHTTPError res_429
                        else Returned res_user;
  time_time := clock
|}.


(** A server that knows no user: 404 with an error body. *)
Definition res_unknown : Response :=
  {| status := 404; read := body_error; headers_get := no_headers |}.

Definition unknown_user : Outside Z := {|
  urlopen := fun _ _ => RaisedHTTPError res_unknown;
  time_time := clock
|}.

(** A server whose 404 has no body. *)
Definition res_empty : Response :=
  {| status := 404; read := EmptyString; headers_get := no_headers |}.

Definition empty_404 : Outside Z := {|
  urlopen := fun _ _ => RaisedHTTPError res_empty;
  time_time := clock
|}.

(** A server that names the bucket of the route in its answer. *)
Definition res_user_bucket : Response :=
  {| status := 200; read := body_user; headers_get := bucket_header "abc123" |}.

Definition with_bucket : Outside Z := {|
  urlopen := fun _ _ => Returned res_user_bucket;
  time_time := clock
|}.

(** A server that names the bucket on the 429 only. *)
Definition res_429_bucket : Response :=
  {| status := 429; read := body_429; headers_get := bucket_header "abc123" |}.

Definition bucket_on_429 : Outside Z := {|
  urlopen := fun k _ => match k with
                        | O => RaisedHTTPError res_429_bucket
                        | S _ => Returned res_user
                        end;
  time_time := clock
|}.

Definition world0 : world (handler := Governor) :=
  {| self := __init__ "TOKEN"; history := [] |}.

(** What [body_user] decodes to, and the request that asks for it. *)
Definition user_123 : json Z :=
  JDict [("id", JStr "123"); ("username", JStr "x")].

Definition get_user_request : Request Z :=
  request_of "GET" "/users/123" PNone None (self world0).

(** *** More of the mock platform *)

#[export] Instance mock_builtins : Builtins Z := {
  str_of := fun v => match v with
                     | PNum x => pretty x
                     | _ => "<object>"
                     end;
  num_eqb_Z := Z.eqb;
  str_chars := fun s =>
    map (fun c => String c EmptyString) (list_ascii_of_string s)
}.

(** A member handle keeps the guild's id and the raw object. *)
#[export] Instance mock_entities : Entities Z := {
  member := pyval Z * json Z;
  Member := fun g raw =>
    match raw with
    | JDict _ => inr (guild_id g, raw)
    | _ => inl TypeError
    end
}.

Definition guild_5 : Guild Z := {| guild_id := PStr "5" |}.

(** More bodies, and a library that decodes them too. *)
Definition body_object : string := "{}".
Definition body_unknown_ban : string :=
  "{'code': 10026, 'message': 'Unknown Ban'}".
Definition body_404 : string := "{'code': 404, 'message': 'Not Found'}".
Definition body_html : string := "<html>Too many requests</html>".

Definition library_2 : Library Z := {|
  API_URL := API_URL;
  LIB_NAME := LIB_NAME;
  LIB_VER := LIB_VER;
  LIB_URL := LIB_URL;
  urljoin := urljoin;
  json_loads := fun s =>
    if String.eqb s body_object then Some (JDict [])
    else if String.eqb s body_unknown_ban
    then Some (JDict [("code", JNum 10026); ("message", JStr "Unknown Ban")])
    else if String.eqb s body_404
    then Some (JDict [("code", JNum 404); ("message", JStr "Not Found")])
    else json_loads s;
  json_dumps := json_dumps
|}.

(** A server that answers every request in the same way. *)
Definition answering (t : transport) : Outside Z := {|
  urlopen := fun _ _ => t;
  time_time := clock
|}.

Definition failing (code : Z) (body : string) : transport :=
  RaisedHTTPError
    {| status := code; read := body; headers_get := no_headers |}.




Definition no_content : transport :=
  Returned {| status := 204; read := EmptyString;
              headers_get := no_headers |}.

End Mock.


(** ** Properties *)

Section Properties.

Context {number : Type} {number_ops : Number number}.
Context {handler : Type} {handler_ops : RateLimitHandler number handler}.
Context {library : Library number} {outside : Outside number}.

#[local] Abbreviation world := (world (number := number) (handler := handler)).
#[local] Abbreviation event := (event number).
#[local] Abbreviation json := (json number).
#[local] Abbreviation pyval := (pyval number).

Lemma requests_app (h1 h2 : list event) :
  requests (h1 ++ h2) = requests h1 ++ requests h2.
Proof.
  induction h1 as [|ev h1 IH]; [reflexivity|].
  destruct ev; cbn; rewrite IH; reflexivity.
Qed.

Lemma merged_idemp headers0 (own : gmap string string) :
  merged headers0 (merged headers0 own) = merged headers0 own.
Proof.
  destruct headers0 as [h|]; cbn; [|reflexivity].
  rewrite (assoc_L (∪)), (idemp_L (∪)). reflexivity.
Qed.

Lemma bind_run {A B} (m : M A) (k : A -> M B) (w : world) :
  bind m k w = match m w with
               | (Return a, w') => k a w'
               | (Raise e, w') => (Raise e, w')
               end.
Proof. reflexivity. Qed.

Lemma ratelimit_check_run route (w : world) :
  ratelimit_check route w = (Return tt, checked route w).
Proof. reflexivity. Qed.

Lemma ratelimit_set_limit_run key limit (w : world) :
  ratelimit_set_limit key limit w = (Return tt, limited key limit w).
Proof. reflexivity. Qed.

Lemma ratelimit_register_bucket_run route bucket (w : world) :
  ratelimit_register_bucket route bucket w
  = (Return tt, registered route bucket w).
Proof. reflexivity. Qed.

Lemma _send_request_run method route data baseurl headers0 (w : world) :
  _send_request method route data baseurl headers0 w
  = match dumped data with
    | None => (Raise TypeError, w)
    | Some body =>
        let req := request_of method route body headers0 (self w) in
        let w1 :=
          {| self := {| headers := req_headers req;
                        _activities := _activities (self w);
                        ratelimit_handler := ratelimit_handler (self w) |};
             history := history w ++ [EvUrlopen req] |} in
        match urlopen (length (requests (history w))) req with
        | Returned res => (Return (res, false), w1)
        | RaisedHTTPError e => (Return (e, true), w1)
        | RaisedURLError => (Raise URLError, w1)
        end
    end.
Proof.
  unfold _send_request, request_of, dumped, merged.
  destruct data; cbn; try destruct (json_dumps items); cbn; try reflexivity;
    match goal with |- context [urlopen ?k ?r] => destruct (urlopen k r) end;
    reflexivity.
Qed.

(** One level of [send_request], with the state passing written out. *)
Lemma send_request_S depth method route data expected_code raise_at_exc
    baseurl headers0 (w : world) :
  send_request (S depth) method route data expected_code raise_at_exc baseurl
               headers0 w
  = match dumped data with
    | None => (Raise TypeError, checked route w)
    | Some body =>
    let req := request_of method route body headers0 (self w) in
    let w1 := sent route req w in
    match response_of (urlopen (length (requests (history w))) req) with
    | None => (Raise URLError, w1)
    | Some (res, exc) =>
        match decoded res with
        | None => (Raise JSONDecodeError, w1)
        | Some resdata =>
            if status res =? 429 then
              match getitem resdata "retry_after" with
              | inl e => (Raise e, w1)
              | inr retry_after =>
                  match add_float (time_time (length (history w1)))
                                  retry_after with
                  | inl e => (Raise e, w1)
                  | inr limit =>
                      match getitem resdata "global" with
                      | inl e => (Raise e, w1)
                      | inr global =>
                          send_request depth method route data expected_code
                            raise_at_exc
                            (Some (match baseurl with
                                   | None => API_URL
                                   | Some b => b
                                   end))
                            headers0
                            (limited (if truthy global then "global"
                                      else route) limit w1)
                      end
                  end
              end
            else
              let w2 :=
                match headers_get res "X-RateLimit-Bucket" with
                | Some bucket =>
                    if is_in_bucket_map route (ratelimit_handler (self w1))
                    then w1 else registered route bucket w1
                | None => w1
                end in
              if raise_at_exc && failed expected_code (status res) exc then
                match getitem resdata "code" with
                | inl e => (Raise e, w2)
                | inr code =>
                    match getitem resdata "message" with
                    | inl e => (Raise e, w2)
                    | inr message =>
                        (Raise (DiscordHTTPError code message res), w2)
                    end
                end
              else (Return resdata, w2)
        end
    end
    end.
Proof.
  cbn [send_request].
  rewrite bind_run, ratelimit_check_run, bind_run, _send_request_run.
  destruct (dumped data) as [body|]; [|reflexivity]. cbv zeta.
  unfold checked.
  cbn [self history headers _activities ratelimit_handler].
  rewrite requests_app, app_nil_r, <- app_assoc. cbn [app].
  unfold sent, decoded, failed.
  unfold request_of. cbn [headers req_headers history].
  destruct (urlopen _ _) as [res|res|]; cbn [response_of fst snd];
    try reflexivity.
  all: rewrite bind_run.
  all: destruct (read res) as [|a rawdata]; [|destruct (json_loads _)];
    cbn [ret raise]; try reflexivity.
  all: destruct (status res =? 429).
  all: unfold now, lift, ratelimit_is_in_bucket_map, get_self.
  all: rewrite bind_run; cbn [history].
  all: try (rewrite bind_run;
            destruct (getitem _ "retry_after"); cbn [ret raise];
              [reflexivity|];
            rewrite bind_run;
            destruct (add_float _ _); cbn [ret raise]; [reflexivity|];
            rewrite bind_run;
            destruct (getitem _ "global"); cbn [ret raise]; [reflexivity|];
            rewrite bind_run, ratelimit_set_limit_run; reflexivity).
  all: destruct (headers_get res _);
    [rewrite bind_run, bind_run; cbn [ret self ratelimit_handler];
     destruct (is_in_bucket_map _ _); cbv beta iota;
       [cbn [ret]|rewrite ratelimit_register_bucket_run]
    |cbn [ret]].
  all: destruct raise_at_exc; cbn [andb]; [|reflexivity].
  all: destruct (orb _ _); [|reflexivity].
  all: rewrite bind_run;
    destruct (getitem _ "code"); cbn [ret raise]; [reflexivity|];
    rewrite bind_run;
    destruct (getitem _ "message"); reflexivity.
Qed.

Lemma send_request_O method route data expected_code raise_at_exc baseurl
    headers0 (w : world) :
  send_request O method route data expected_code raise_at_exc baseurl
               headers0 w = (Raise RecursionError, w).
Proof. reflexivity. Qed.


Lemma request_of_sent method route body headers0 (w : world) key limit :
  request_of method route body headers0
    (self (limited key limit
             (sent route (request_of method route body headers0 (self w)) w)))
  = request_of method route body headers0 (self w).
Proof.
  unfold request_of. cbn. rewrite merged_idemp. reflexivity.
Qed.

(** What a call leaves behind.  When [json.dumps] raises, the call ends
    after the check at the latest, with the headers as they were. *)
Lemma send_request_frame depth :
  forall method route data expected_code raise_at_exc baseurl headers0
         (w : world) o w',
    send_request depth method route data expected_code raise_at_exc baseurl
                 headers0 w = (o, w') ->
    exists new,
      history w' = history w ++ new
      /\ _activities (self w') = _activities (self w)
      /\ match dumped data with
         | Some body =>
             attempts route (request_of method route body headers0 (self w))
                      new
             /\ headers (self w')
                = match depth with
                  | O => headers (self w)
                  | S _ => merged headers0 (headers (self w))
                  end
         | None =>
             (new = [] \/ new = [EvCheck route])
             /\ headers (self w') = headers (self w)
         end.
Proof.
  induction depth as [|depth IH]; intros method route data expected_code
    raise_at_exc baseurl headers0 w o w' Hrun.
  - rewrite send_request_O in Hrun. injection Hrun as <- <-.
    exists []. rewrite app_nil_r.
    destruct (dumped data); auto using attempts_none.
  - rewrite send_request_S in Hrun.
    destruct (dumped data) as [body|] eqn:Hbody.
    2: { injection Hrun as <- <-. exists [EvCheck route]. auto. }
    cbv zeta in Hrun.
    repeat case_match; simplify_eq.
    all: try (eexists; split; [cbn; rewrite <- ?app_assoc; reflexivity|];
              split; [reflexivity|];
              split; [cbn; eauto using attempts_last, attempts_registered|];
              reflexivity).
    all: apply IH in Hrun as (new & Hhist & Hact & Hrest).
    all: rewrite Hbody, request_of_sent in Hrest.
    all: destruct Hrest as [Hnew Hhdr].
    all: eexists; split; [rewrite Hhist; cbn [limited sent history];
                          rewrite <- !app_assoc; reflexivity|].
    all: split; [rewrite Hact; reflexivity|].
    all: split; [cbn; eauto using attempts_retry|].
    all: rewrite Hhdr; cbn; auto using merged_idemp.
Qed.

Lemma attempts_requests route req (new : list event) :
  attempts route req new ->
  exists n, requests new = replicate n req.
Proof.
  induction 1 as [| |bucket|key limit rest _ [n IH]].
  - exists O. reflexivity.
  - exists 1%nat. reflexivity.
  - exists 1%nat. reflexivity.
  - exists (S n). cbn. rewrite IH. reflexivity.
Qed.

Lemma attempts_checked route req (new : list event) :
  attempts route req new ->
  forall pre req' post,
    new = pre ++ EvUrlopen req' :: post ->
    exists pre', pre = pre' ++ [EvCheck route].
Proof.
  induction 1 as [| |bucket|key limit rest _ IH]; intros pre req' post Heq.
  - destruct pre; discriminate.
  - destruct pre as [|e1 [|e2 [|e3 pre]]]; simplify_eq/=;
      try (destruct pre; discriminate).
    exists []. reflexivity.
  - destruct pre as [|e1 [|e2 [|e3 [|e4 pre]]]]; simplify_eq/=;
      try (destruct pre; discriminate).
    exists []. reflexivity.
  - destruct pre as [|e1 [|e2 [|e3 pre]]]; simplify_eq/=.
    + exists []. reflexivity.
    + destruct (IH _ _ _ eq_refl) as [pre' ->].
      exists (EvCheck route :: EvUrlopen req :: EvSetLimit key limit :: pre').
      reflexivity.
Qed.


(** The requests of a call are one request, issued some number of times. *)
Lemma send_request_requests depth method route data expected_code
    raise_at_exc baseurl headers0 (w : world) :
  exists new n req,
    history (send_request depth method route data expected_code raise_at_exc
                          baseurl headers0 w).2 = history w ++ new
    /\ requests new = replicate n req
    /\ req_method req = method
    /\ req_url req = construct_url API_URL route
    /\ req_headers req = merged headers0 (headers (self w))
    /\ (n <> O -> dumped data = Some (req_data req))
    /\ (forall pre req' post,
          new = pre ++ EvUrlopen req' :: post ->
          exists pre', pre = pre' ++ [EvCheck route]).
Proof.
  destruct (send_request _ _ _ _ _ _ _ _ w) as [o w'] eqn:Hrun.
  apply send_request_frame in Hrun as (new & Hhist & _ & Hrest).
  exists new. cbn [snd].
  destruct (dumped data) as [body|].
  - destruct Hrest as [Hnew _].
    destruct (attempts_requests _ _ _ Hnew) as [n Hreqs].
    exists n, (request_of method route body headers0 (self w)).
    repeat split; auto. exact (attempts_checked _ _ _ Hnew).
  - destruct Hrest as [Hnew _].
    exists O, (request_of method route data headers0 (self w)).
    repeat split; auto.
    + destruct Hnew as [-> | ->]; reflexivity.
    + congruence.
    + intros pre req' post Heq.
      destruct Hnew as [-> | ->]; destruct pre as [|e1 [|e2 pre]];
        discriminate.
Qed.



Lemma failed_false expected_code code :
  (forall expected, expected_code = Some expected -> code = expected) ->
  failed expected_code code false = false.
Proof.
  intros Hcode. unfold failed. destruct expected_code as [expected|];
    [|reflexivity].
  rewrite (Hcode expected eq_refl), Z.eqb_refl. reflexivity.
Qed.

Lemma failed_true expected_code code exc :
  exc = true \/ (exists expected, expected_code = Some expected
                                  /\ code <> expected) ->
  failed expected_code code exc = true.
Proof.
  unfold failed. intros [->|(expected & -> & Hne)].
  - apply orb_true_r.
  - apply Z.eqb_neq in Hne. rewrite Hne. reflexivity.
Qed.

(** The world in which the last attempt ends. *)
Lemma requests_last_attempt route req res (w : world) :
  requests
    (history
       match headers_get res "X-RateLimit-Bucket" with
       | Some bucket =>
           if is_in_bucket_map route
                (ratelimit_handler (self (sent route req w)))
           then sent route req w
           else registered route bucket (sent route req w)
       | None => sent route req w
       end)
  = requests (history w) ++ [req].
Proof.
  repeat case_match; cbn; rewrite !requests_app; cbn;
    rewrite ?app_nil_r; reflexivity.
Qed.


(** The recursion limit only cuts the nesting: a call that ends without
    [RecursionError] ends the same way under a higher limit. *)
Lemma send_request_more_depth depth :
  forall method route data expected_code raise_at_exc baseurl headers0
         (w : world) o w' depth',
    send_request depth method route data expected_code raise_at_exc baseurl
                 headers0 w = (o, w') ->
    o <> Raise RecursionError ->
    (depth <= depth')%nat ->
    send_request depth' method route data expected_code raise_at_exc baseurl
                 headers0 w = (o, w').
Proof.
  induction depth as [|depth IH]; intros method route data expected_code
    raise_at_exc baseurl headers0 w o w' depth' Hrun Hended Hle.
  - rewrite send_request_O in Hrun. congruence.
  - destruct depth' as [|depth']; [lia|].
    rewrite send_request_S in Hrun |- *. cbv zeta in Hrun |- *.
    repeat case_match; simplify_eq; try reflexivity.
    all: eapply IH; [eassumption|assumption|lia].
Qed.

(** *** The retry on 429 *)




(** *** The rate-limit handler *)

(** C4.  In what a call to [send_request] does, every request handed to
    the transport comes right after a [check] of the call's route: the
    first request and each retry after a 429 alike. *)
Theorem check_precedes_every_request depth method route data expected_code
    raise_at_exc baseurl headers0 (w : world) :
  exists new,
    history (send_request depth method route data expected_code raise_at_exc
                          baseurl headers0 w).2
    = history w ++ new
    /\ forall pre req post,
         new = pre ++ EvUrlopen req :: post ->
         exists pre', pre = pre' ++ [EvCheck route].
Proof.
  destruct (send_request_requests depth method route data expected_code
              raise_at_exc baseurl headers0 w)
    as (new & n & req & Hhist & _ & _ & _ & _ & _ & Hchecked).
  exists new. split; [exact Hhist|exact Hchecked].
Qed.


(** C7, as amended.  For a response whose status is not 429 and whose body
    is empty or decodes, and which carries the X-RateLimit-Bucket header:
    when [is_in_bucket_map] does not know the route,
    [register_bucket(route, bucket)] is called with the header's value
    right after the request; when it knows the route, nothing is
    registered and the handler is as [check] left it. *)
Theorem bucket_registered_once depth method route data body expected_code
    raise_at_exc baseurl headers0 (w : world) res exc resdata bucket :
  let req := request_of method route body headers0 (self w) in
  let checked := check route (ratelimit_handler (self w)) in
  let w' := (send_request (S depth) method route data expected_code
                          raise_at_exc baseurl headers0 w).2 in
  dumped data = Some body ->
  response_of (urlopen (length (requests (history w))) req)
  = Some (res, exc) ->
  status res <> 429 ->
  decoded res = Some resdata ->
  headers_get res "X-RateLimit-Bucket" = Some bucket ->
  if is_in_bucket_map route checked
  then history w' = history w ++ [EvCheck route; EvUrlopen req]
       /\ ratelimit_handler (self w') = checked
  else history w'
       = history w ++ [EvCheck route; EvUrlopen req;
                       EvRegisterBucket route bucket]
       /\ ratelimit_handler (self w') = register_bucket route bucket checked.
Proof.
  intros req checked w' Hdumped Hres Hstatus Hbody Hbucket. subst w'.
  rewrite send_request_S, Hdumped. cbv zeta. fold req. rewrite Hres, Hbody.
  apply Z.eqb_neq in Hstatus. rewrite Hstatus, Hbucket.
  cbn [sent self ratelimit_handler]. fold checked.
  destruct (is_in_bucket_map route checked);
    repeat case_match; cbn; rewrite <- ?app_assoc; split; reflexivity.
Qed.

(** *** The result of a call *)

(** C5, as amended.  For a call with [raise_at_exc] true whose response
    has a status other than 429 and a body that is empty or decodes: if
    the transport failed, or [expected_code] is given and differs from the
    status, and the decoded body is an object with [code] and [message],
    [DiscordHTTPError] is raised with these two and the response; if
    neither holds, the decoded body is returned, which is [None] for an
    empty body.  (A response is received for the body that [json.dumps]
    accepted.) *)
Theorem send_request_raises_or_returns depth method route data body
    expected_code baseurl headers0 (w : world) res exc resdata :
  let req := request_of method route body headers0 (self w) in
  let o := (send_request (S depth) method route data expected_code true
                         baseurl headers0 w).1 in
  dumped data = Some body ->
  response_of (urlopen (length (requests (history w))) req)
  = Some (res, exc) ->
  status res <> 429 ->
  decoded res = Some resdata ->
  (exc = true \/ (exists expected, expected_code = Some expected
                                   /\ status res <> expected) ->
   forall code message,
     getitem resdata "code" = inr code ->
     getitem resdata "message" = inr message ->
     o = Raise (DiscordHTTPError code message res))
  /\ (exc = false ->
      (forall expected, expected_code = Some expected ->
                        status res = expected) ->
      o = Return resdata)
  /\ (read res = EmptyString -> resdata = JNone).
Proof.
  intros req o Hdumped Hres Hstatus Hbody. subst o.
  rewrite send_request_S, Hdumped. cbv zeta. fold req. rewrite Hres, Hbody.
  apply Z.eqb_neq in Hstatus. rewrite Hstatus. cbn [andb].
  split; [|split].
  - intros Hfailed code message Hcode Hmessage.
    rewrite (failed_true _ _ _ Hfailed), Hcode, Hmessage. reflexivity.
  - intros -> Hexpected. rewrite (failed_false _ _ Hexpected). reflexivity.
  - intros Hempty. unfold decoded in Hbody. rewrite Hempty in Hbody.
    congruence.
Qed.

(** C9.  For a call with [raise_at_exc] true whose response has a status
    other than 429 and an empty body: if the transport failed, or
    [expected_code] is given and differs from the status, building the
    error subscripts [None], and the call raises [TypeError]: it neither
    returns nor raises [DiscordHTTPError].  (A response is received for
    the body that [json.dumps] accepted.) *)
Theorem empty_error_body_raises_TypeError depth method route data body
    expected_code baseurl headers0 (w : world) res exc :
  dumped data = Some body ->
  response_of (urlopen (length (requests (history w)))
                       (request_of method route body headers0 (self w)))
  = Some (res, exc) ->
  status res <> 429 ->
  read res = EmptyString ->
  exc = true \/ (exists expected, expected_code = Some expected
                                  /\ status res <> expected) ->
  (send_request (S depth) method route data expected_code true baseurl
                headers0 w).1 = Raise TypeError.
Proof.
  intros Hdumped Hres Hstatus Hempty Hfailed.
  rewrite send_request_S, Hdumped. cbv zeta. rewrite Hres.
  unfold decoded. rewrite Hempty.
  apply Z.eqb_neq in Hstatus. rewrite Hstatus. cbn [andb].
  rewrite (failed_true _ _ _ Hfailed). reflexivity.
Qed.

(** *** Headers and URL *)



(** *** The presence update *)

Lemma update_presence_run activities status afk since (w : world) :
  update_presence activities status afk since w
  = let since' := match since with
                  | PNone => PNum (num_mul (time_time (length (history w)))
                                            (num_of_Z 1000))
                  | _ => since
                  end in
    let stored := match activities with
                  | PNone => _activities (self w)
                  | PList l => l
                  | PTuple l => l
                  | _ => [activities]
                  end in
    (Return tt,
     {| self := {| headers := headers (self w);
                   _activities := stored;
                   ratelimit_handler := ratelimit_handler (self w) |};
        history :=
          history w
          ++ [EvSend {| op := PRESENCE_UPDATE;
                        d := clear_postdata
                               (clear_postdata
                                  [("activities", PTuple stored);
                                   ("status", status); ("afk", afk);
                                   ("since", since')]) |}] |}).
Proof.
  unfold update_presence. rewrite bind_run.
  destruct w as [[hdrs acts hnd] hist].
  destruct since; cbn; destruct activities; reflexivity.
Qed.

(** C3.  [update_presence] without an [activities] argument sends the
    activities stored in [_activities] and leaves the attribute as it is;
    with an empty list or an empty tuple it stores the empty tuple and
    sends an empty sequence of activities. *)
Theorem update_presence_keeps_or_clears status afk since (w : world) :
  let carries (acts : list pyval) (r : outcome unit * world) :=
    r.1 = Return tt
    /\ _activities (self r.2) = acts
    /\ exists data,
         history r.2 = history w ++ [EvSend data]
         /\ op data = PRESENCE_UPDATE
         /\ dict_get "activities" (d data) = Some (PTuple acts) in
  carries (_activities (self w)) (update_presence PNone status afk since w)
  /\ carries [] (update_presence (PList []) status afk since w)
  /\ carries [] (update_presence (PTuple []) status afk since w).
Proof.
  intros carries. subst carries. cbv beta.
  rewrite !update_presence_run. cbn.
  repeat split; eexists; repeat split.
Qed.

(** X13.  Activities given once are stored, and a later update that
    gives none sends them again. *)
Lemma update_presence_carries_over acts status afk since status2 afk2 since2
    (w : world) :
  let w1 := (update_presence (PList acts) status afk since w).2 in
  let w2 := (update_presence PNone status2 afk2 since2 w1).2 in
  _activities (self w2) = acts
  /\ exists data,
       history w2 = history w1 ++ [EvSend data]
       /\ dict_get "activities" (d data) = Some (PTuple acts).
Proof.
  cbv zeta. rewrite !update_presence_run. cbn.
  split; [reflexivity|]. eexists. split; reflexivity.
Qed.

Lemma construct_url_slash baseurl (rest : string) :
  construct_url baseurl (String "/" rest) = urljoin baseurl rest.
Proof. reflexivity. Qed.

End Properties.

(** ** The properties on the mock platform *)

Import Mock.







(** A first answer that names the bucket registers it for the route. *)
Lemma bucket_registered_once_witness :
  let w' := (send_request (outside := with_bucket) 1 "GET" "/users/123" PNone
                          None true None None world0).2 in
  history w' = [EvCheck "/users/123"; EvUrlopen get_user_request;
                EvRegisterBucket "/users/123" "abc123"]
  /\ ratelimit_handler (self w')
     = register_bucket "/users/123" "abc123"
         (check "/users/123" (ratelimit_handler (self world0))).
Proof.
  assert (Hstatus : status res_user_bucket <> 429) by (cbn; lia).
  assert (Hunknown : is_in_bucket_map "/users/123"
                       (check "/users/123" (ratelimit_handler (self world0)))
                     = false) by reflexivity.
  pose proof (bucket_registered_once (outside := with_bucket) 0 "GET"
                "/users/123" PNone PNone None true None None world0
                res_user_bucket false user_123 "abc123" eq_refl eq_refl
                Hstatus eq_refl eq_refl)
    as Hregistered.
  rewrite Hunknown in Hregistered. exact Hregistered.
Defined.

(** C7 as stated fails: the 429 names the bucket of a route the handler
    does not know, and nothing is registered, during the retry or by its
    end. *)
Lemma bucket_on_429_counterexample :
  let r := send_request (outside := bucket_on_429) 2 "GET" "/users/123" PNone
                        None true None None world0 in
  urlopen (Outside := bucket_on_429) 0 get_user_request
  = RaisedHTTPError res_429_bucket
  /\ headers_get res_429_bucket "X-RateLimit-Bucket" = Some "abc123"
  /\ is_in_bucket_map "/users/123" (ratelimit_handler (self world0)) = false
  /\ r.1 = Return user_123
  /\ history r.2 = [EvCheck "/users/123"; EvUrlopen get_user_request;
                   EvSetLimit "/users/123" 1004;
                   EvCheck "/users/123"; EvUrlopen get_user_request]
  /\ is_in_bucket_map "/users/123" (ratelimit_handler (self r.2)) = false.
Proof.
  cbv zeta. repeat split; vm_compute; reflexivity.
Qed.

(** An unknown user: the 404 is raised with the code and the message of
    its body. *)
Lemma send_request_raises_or_returns_witness :
  (send_request (outside := unknown_user) 1 "GET" "/users/0" PNone None true
                None None world0).1
  = Raise (DiscordHTTPError (JNum 10013) (JStr "Unknown User") res_unknown).
Proof.
  refine (proj1 (send_request_raises_or_returns (outside := unknown_user)
                   0 "GET" "/users/0" PNone PNone None None None world0
                   res_unknown true
                   (JDict [("code", JNum 10013);
                           ("message", JStr "Unknown User")])
                   _ _ _ _) _ _ _ _ _).
  - reflexivity.
  - reflexivity.
  - cbn. lia.
  - reflexivity.
  - left. reflexivity.
  - reflexivity.
  - reflexivity.
Defined.

(** C5 as stated fails: the transport fails with a 429, which is not the
    expected 200 either, and the call raises nothing: it returns the user
    of the retry. *)
Lemma failed_transport_retried_counterexample :
  urlopen (Outside := throttling 1) 0 get_user_request
  = RaisedHTTPError res_429
  /\ status res_429 <> 200
  /\ (send_request (outside := throttling 1) 2 "GET" "/users/123" PNone
                   (Some 200) true None None world0).1
     = Return user_123.
Proof.
  split; [reflexivity|]. split; [cbn; lia|]. vm_compute. reflexivity.
Qed.

(** A 404 without a body: [TypeError]. *)
Lemma empty_error_body_raises_TypeError_witness :
  (send_request (outside := empty_404) 1 "GET" "/users/0" PNone None true
                None None world0).1 = Raise TypeError.
Proof.
  apply (empty_error_body_raises_TypeError (outside := empty_404) 0 "GET"
           "/users/0" PNone PNone None None None world0 res_empty true).
  - reflexivity.
  - reflexivity.
  - cbn. lia.
  - reflexivity.
  - left. reflexivity.
Defined.




(** The history of the call that is throttled twice. *)
Example throttled_call_history :
  history (send_request (outside := throttling 2) 3 "GET" "/users/123" PNone
                        None true None None world0).2
  = [EvCheck "/users/123"; EvUrlopen get_user_request;
     EvSetLimit "/users/123" 1004;
     EvCheck "/users/123"; EvUrlopen get_user_request;
     EvSetLimit "/users/123" 1007;
     EvCheck "/users/123"; EvUrlopen get_user_request].
Proof. vm_compute. reflexivity. Qed.

Example get_user_url :
  req_url get_user_request = "https://discord.com/api/v9/users/123".
Proof. reflexivity. Qed.

(** The scenario of section 8: the mock answers 200 with the user. *)
Example get_user_id :
  (send_request (outside := throttling 0) 1 "GET" "/users/123" PNone None
                true None None world0).1 = Return user_123
  /\ getitem user_123 "id" = inr (JStr "123").
Proof. split; vm_compute; reflexivity. Qed.

(** ** Further properties of the dispatcher *)

Section Dispatcher.

Context {number : Type} {number_ops : Number number}.
Context {handler : Type} {handler_ops : RateLimitHandler number handler}.
Context {library : Library number} {outside : Outside number}.

#[local] Abbreviation world := (world (number := number) (handler := handler)).
#[local] Abbreviation event := (event number).
#[local] Abbreviation json := (json number).
#[local] Abbreviation pyval := (pyval number).

(** X1.  When [urlopen] raises something that is not an [HTTPError], the
    call raises it as it is, after one check and one request: nothing is
    retried, no limit is set and no bucket registered. *)
Theorem transport_error_propagates depth method route data body
    expected_code raise_at_exc baseurl headers0 (w : world) :
  let req := request_of method route body headers0 (self w) in
  dumped data = Some body ->
  urlopen (length (requests (history w))) req = RaisedURLError ->
  exists w',
    send_request (S depth) method route data expected_code raise_at_exc
                 baseurl headers0 w = (Raise URLError, w')
    /\ history w' = history w ++ [EvCheck route; EvUrlopen req]
    /\ ratelimit_handler (self w') = check route (ratelimit_handler (self w)).
Proof.
  intros req Hdumped Hraised. rewrite send_request_S, Hdumped. cbv zeta.
  fold req. rewrite Hraised. cbn [response_of].
  eexists. split; [reflexivity|]. split; reflexivity.
Qed.

(** X2.  A body that is not empty and that [json.loads] rejects makes the
    call raise the decoding error, whatever the status: a 429 with such a
    body is not retried and sets no limit. *)
Theorem undecodable_body_raises depth method route data body expected_code
    raise_at_exc baseurl headers0 (w : world) res exc :
  let req := request_of method route body headers0 (self w) in
  dumped data = Some body ->
  response_of (urlopen (length (requests (history w))) req)
  = Some (res, exc) ->
  read res <> EmptyString ->
  json_loads (read res) = None ->
  exists w',
    send_request (S depth) method route data expected_code raise_at_exc
                 baseurl headers0 w = (Raise JSONDecodeError, w')
    /\ history w' = history w ++ [EvCheck route; EvUrlopen req]
    /\ ratelimit_handler (self w') = check route (ratelimit_handler (self w)).
Proof.
  intros req Hdumped Hres Hbody Hloads. rewrite send_request_S, Hdumped.
  cbv zeta. fold req. rewrite Hres. unfold decoded.
  destruct (read res) as [|c rawdata]; [congruence|]. rewrite Hloads.
  eexists. split; [reflexivity|]. split; reflexivity.
Qed.

(** X3.  A 429 with an empty body is not absorbed: subscripting the
    [None] body for [retry_after] raises [TypeError], no limit is set and
    the request is not sent again. *)
Theorem throttle_without_body_raises depth method route data body
    expected_code raise_at_exc baseurl headers0 (w : world) res exc :
  let req := request_of method route body headers0 (self w) in
  dumped data = Some body ->
  response_of (urlopen (length (requests (history w))) req)
  = Some (res, exc) ->
  status res = 429 ->
  read res = EmptyString ->
  exists w',
    send_request (S depth) method route data expected_code raise_at_exc
                 baseurl headers0 w = (Raise TypeError, w')
    /\ history w' = history w ++ [EvCheck route; EvUrlopen req].
Proof.
  intros req Hdumped Hres Hstatus Hempty. rewrite send_request_S, Hdumped.
  cbv zeta. fold req. rewrite Hres. unfold decoded. rewrite Hempty, Hstatus. cbn.
  eexists. split; reflexivity.
Qed.


Lemma getitem_raises (o : json) key e :
  getitem o key = inl e -> e = TypeError \/ e = KeyError key.
Proof.
  destruct o; cbn; try (intros [= <-]; left; reflexivity).
  destruct (dict_get key items); intros [= <-]. right. reflexivity.
Qed.

Lemma add_float_raises (t : number) (v : json) e :
  add_float t v = inl e -> e = TypeError.
Proof. destruct v; cbn; congruence. Qed.

(** X5.  With [raise_at_exc] false a call never raises
    [DiscordHTTPError], whatever the transport answers and however often
    it is throttled. *)
Theorem quiet_call_never_raises_http_error depth :
  forall method route data expected_code baseurl headers0 (w : world)
         code message res,
    (send_request depth method route data expected_code false baseurl
                  headers0 w).1 <> Raise (DiscordHTTPError code message res).
Proof.
  induction depth as [|depth IH]; intros method route data expected_code baseurl
    headers0 w code message res.
  - rewrite send_request_O. discriminate.
  - rewrite send_request_S.
    destruct (dumped data) as [body|]; [|discriminate]. cbv zeta.
    repeat case_match; cbn [fst]; try discriminate; try apply IH.
    all: repeat match goal with
           | H : getitem _ _ = inl _ |- _ =>
               apply getitem_raises in H as [->| ->]
           | H : add_float _ _ = inl _ |- _ => apply add_float_raises in H as ->
           end; discriminate.
Qed.

(** X6.  In the error branch a body that is an object without [code]
    raises [KeyError] for [code], and one with [code] and without
    [message] raises [KeyError] for [message]: no [DiscordHTTPError]
    reaches the caller. *)
Theorem error_body_without_keys_raises depth method route data body
    expected_code baseurl headers0 (w : world) res exc items :
  let req := request_of method route body headers0 (self w) in
  let missing := match dict_get "code" items with
                 | None => "code"
                 | Some _ => "message"
                 end in
  dumped data = Some body ->
  response_of (urlopen (length (requests (history w))) req)
  = Some (res, exc) ->
  status res <> 429 ->
  decoded res = Some (JDict items) ->
  exc = true \/ (exists expected, expected_code = Some expected
                                  /\ status res <> expected) ->
  dict_get "code" items = None \/ dict_get "message" items = None ->
  (send_request (S depth) method route data expected_code true baseurl
                headers0 w).1 = Raise (KeyError missing).
Proof.
  intros req missing Hdumped Hres Hstatus Hbody Hfailed Hmissing.
  subst missing.
  rewrite send_request_S, Hdumped. cbv zeta. fold req. rewrite Hres, Hbody.
  apply Z.eqb_neq in Hstatus. rewrite Hstatus. cbn [andb getitem].
  rewrite (failed_true _ _ _ Hfailed).
  destruct (dict_get "code" items) as [code|]; [|reflexivity].
  destruct Hmissing as [Hcode| ->]; [discriminate|reflexivity].
Qed.

(** X7.  A header the caller gives wins over the client's own header of
    the same name, and every other header of the client is sent as it
    is: for each name, the requests of the call carry the caller's value
    if there is one and the client's otherwise. *)
Theorem caller_headers_take_precedence depth method route data expected_code
    raise_at_exc baseurl overrides (w : world) :
  exists new,
    history (send_request depth method route data expected_code raise_at_exc
                          baseurl (Some overrides) w).2
    = history w ++ new
    /\ Forall (fun req =>
                forall name,
                  req_headers req !! name
                  = match overrides !! name with
                    | Some value => Some value
                    | None => headers (self w) !! name
                    end)
              (requests new).
Proof.
  destruct (send_request_requests depth method route data expected_code
              raise_at_exc baseurl (Some overrides) w)
    as (new & n & req & Hhist & Hreqs & _ & _ & Hheaders & _).
  exists new. split; [exact Hhist|]. rewrite Hreqs.
  apply Forall_replicate. intros name. rewrite Hheaders. cbn [merged].
  rewrite lookup_union. destruct (overrides !! name), (headers (self w) !! name);
    reflexivity.
Qed.

(** X8.  A call never touches [_activities], and a call without a
    [headers] argument leaves the client's headers as they were. *)
Theorem send_request_keeps_client depth method route data expected_code
    raise_at_exc baseurl headers0 (w : world) :
  let w' := (send_request depth method route data expected_code raise_at_exc
                          baseurl headers0 w).2 in
  _activities (self w') = _activities (self w)
  /\ (headers0 = None -> headers (self w') = headers (self w)).
Proof.
  intros w'. subst w'.
  destruct (send_request _ _ _ _ _ _ _ _ w) as [o w'] eqn:Hrun.
  apply send_request_frame in Hrun as (new & _ & Hactivities & Hrest).
  cbn [snd]. split; [exact Hactivities|]. intros ->.
  destruct (dumped data); destruct Hrest as [_ ->]; [|reflexivity].
  destruct depth; reflexivity.
Qed.

(** X9.  The body handed to the transport is never a str or a dict: a
    dict is sent as the bytes of its [json.dumps], a str as its bytes,
    anything else as it is. *)
Theorem request_body_is_encoded depth method route data expected_code
    raise_at_exc baseurl headers0 (w : world) :
  exists new,
    history (send_request depth method route data expected_code raise_at_exc
                          baseurl headers0 w).2
    = history w ++ new
    /\ Forall (fun req =>
                match data with
                | PDict items =>
                    exists s, json_dumps items = Some s
                              /\ req_data req = PBytes s
                | PStr s => req_data req = PBytes s
                | _ => req_data req = data
                end
                /\ (forall s, req_data req <> PStr s)
                /\ (forall items, req_data req <> PDict items))
              (requests new).
Proof.
  destruct (send_request_requests depth method route data expected_code
              raise_at_exc baseurl headers0 w)
    as (new & n & req & Hhist & Hreqs & _ & _ & _ & Hdumped & _).
  exists new. split; [exact Hhist|]. rewrite Hreqs.
  destruct n as [|n]; [constructor|].
  apply Forall_replicate. specialize (Hdumped ltac:(discriminate)).
  unfold dumped in Hdumped.
  destruct data; try destruct (json_dumps items) as [s|] eqn:Hs;
    try discriminate; injection Hdumped as Hd; rewrite <- Hd;
    (split; [first [reflexivity | exists s; split; reflexivity]
            |split; intros; discriminate]).
Qed.

(** X10.  Only a 429 is retried: a call whose first answer has another
    status issues that one request and no more, however it ends. *)
Theorem other_status_is_not_retried depth method route data body
    expected_code raise_at_exc baseurl headers0 (w : world) res exc :
  let req := request_of method route body headers0 (self w) in
  dumped data = Some body ->
  response_of (urlopen (length (requests (history w))) req)
  = Some (res, exc) ->
  status res <> 429 ->
  requests (history (send_request (S depth) method route data expected_code
                                  raise_at_exc baseurl headers0 w).2)
  = requests (history w) ++ [req].
Proof.
  intros req Hdumped Hres Hstatus. rewrite send_request_S, Hdumped. cbv zeta.
  fold req. rewrite Hres. apply Z.eqb_neq in Hstatus.
  destruct (decoded res) as [resdata|].
  - rewrite Hstatus.
    repeat case_match; cbn [snd]; try apply requests_last_attempt;
      cbn; rewrite !requests_app; cbn; rewrite ?app_nil_r; reflexivity.
  - cbn. rewrite requests_app. cbn. reflexivity.
Qed.



(** X12.  A client made by [__init__] authenticates what it sends: the
    requests of a call without a [headers] argument carry the bot token
    in [Authorization], the JSON content type and the library's user
    agent. *)
Theorem fresh_client_headers token depth method route data expected_code
    raise_at_exc baseurl (past : list event) :
  let w : world := {| self := __init__ token; history := past |} in
  exists new,
    history (send_request depth method route data expected_code raise_at_exc
                          baseurl None w).2
    = past ++ new
    /\ Forall (fun req =>
                req_headers req !! "Authorization" = Some ("Bot " +:+ token)
                /\ req_headers req !! "Content-Type" = Some "application/json"
                /\ req_headers req !! "User-Agent"
                   = Some (LIB_NAME +:+ " (" +:+ LIB_URL +:+ ", " +:+ LIB_VER
                           +:+ ")"))
              (requests new).
Proof.
  intros w.
  destruct (send_request_requests depth method route data expected_code
              raise_at_exc baseurl None w)
    as (new & n & req & Hhist & Hreqs & _ & _ & Hheaders & _).
  exists new. split; [exact Hhist|]. rewrite Hreqs.
  apply Forall_replicate. rewrite Hheaders.
  cbn [merged w self __init__ headers].
  repeat split; by simplify_map_eq.
Qed.


(** X14.  A single activity, given as a dict and not in a list or a
    tuple, is stored and sent as a tuple of one; the update sends that
    one frame, issues no request and leaves the headers and the
    rate-limit handler alone. *)
Theorem update_presence_wraps_single_activity items status afk since
    (w : world) :
  let r := update_presence (PDict items) status afk since w in
  r.1 = Return tt
  /\ _activities (self r.2) = [PDict items]
  /\ headers (self r.2) = headers (self w)
  /\ ratelimit_handler (self r.2) = ratelimit_handler (self w)
  /\ exists data,
       history r.2 = history w ++ [EvSend data]
       /\ dict_get "activities" (d data) = Some (PTuple [PDict items]).
Proof.
  cbv zeta. rewrite update_presence_run. cbn.
  repeat split. eexists. split; reflexivity.
Qed.

End Dispatcher.

(** ** Properties of the guild's methods *)

Section GuildProperties.

Context {number : Type} {number_ops : Number number}.
Context {handler : Type} {handler_ops : RateLimitHandler number handler}.
Context {library : Library number} {outside : Outside number}.
Context {builtins : Builtins number} {entities : Entities number}.

#[local] Abbreviation world := (world (number := number) (handler := handler)).
#[local] Abbreviation json := (json number).
#[local] Abbreviation pyval := (pyval number).

Lemma string_app_cons (x : ascii) (a b : string) :
  String x a +:+ b = String x (a +:+ b).
Proof. reflexivity. Qed.

Lemma string_app_assoc (a b c : string) :
  (a +:+ b) +:+ c = a +:+ b +:+ c.
Proof.
  induction a as [|x a IH]; [reflexivity|].
  rewrite !string_app_cons, IH. reflexivity.
Qed.

Lemma string_app_nil_r (a : string) : a +:+ EmptyString = a.
Proof.
  induction a as [|x a IH]; [reflexivity|].
  rewrite string_app_cons, IH. reflexivity.
Qed.

Lemma drop_last_snoc (a : string) (c : ascii) :
  drop_last (a +:+ String c EmptyString) = a.
Proof.
  induction a as [|x a IH]; [reflexivity|].
  rewrite string_app_cons. cbn [drop_last]. rewrite IH.
  destruct a; reflexivity.
Qed.

(** The loop over the parameters, and the slice that ends it. *)
Lemma endpoint_loop (items : list (string * pyval)) :
  forall endpoint,
    items <> [] ->
    fold_left (fun endpoint kv =>
                 endpoint +:+ kv.1 +:+ "=" +:+ py_str kv.2 +:+ "&")
              items endpoint
    = (endpoint +:+ pairs_joined items) +:+ "&".
Proof.
  induction items as [|kv [|kv' rest] IH]; intros endpoint Hitems.
  - congruence.
  - cbn [fold_left pairs_joined]. rewrite !string_app_assoc. reflexivity.
  - cbn [fold_left] in *. rewrite IH by discriminate.
    cbn [pairs_joined]. rewrite !string_app_assoc. reflexivity.
Qed.

Lemma endpoint_sliced (base : string) (items : list (string * pyval)) :
  drop_last
    (fold_left (fun endpoint kv =>
                  endpoint +:+ kv.1 +:+ "=" +:+ py_str kv.2 +:+ "&")
               items (base +:+ "?"))
  = base +:+ query_string items.
Proof.
  destruct items as [|kv rest].
  - cbn [fold_left query_string]. rewrite drop_last_snoc, string_app_nil_r.
    reflexivity.
  - rewrite endpoint_loop by discriminate. rewrite drop_last_snoc.
    cbn [query_string]. rewrite string_app_assoc. reflexivity.
Qed.

Lemma members_endpoint (prefix guild suffix : string)
    (items : list (string * pyval)) :
  drop_last
    (fold_left (fun endpoint kv =>
                  endpoint +:+ kv.1 +:+ "=" +:+ py_str kv.2 +:+ "&")
               items (prefix +:+ guild +:+ suffix +:+ "?"))
  = prefix +:+ guild +:+ suffix +:+ query_string items.
Proof.
  replace (prefix +:+ guild +:+ suffix +:+ "?")
    with ((prefix +:+ guild +:+ suffix) +:+ "?")
    by (rewrite !string_app_assoc; reflexivity).
  rewrite endpoint_sliced, !string_app_assoc. reflexivity.
Qed.

(** What the wrapping of the members adds to the call: nothing that
    shows in the world. *)
Lemma wrapped_world {A B C : Type} (m : M (handler := handler) A)
    (f : A -> exn number + B) (g : B -> exn number + C) (w : world) :
  (bind m (fun x => bind (lift (f x)) (fun y => lift (g y))) w).2 = (m w).2.
Proof.
  unfold bind, lift, raise, ret.
  destruct (m w) as [[x|e] w']; [|reflexivity].
  cbn. destruct (f x) as [e|y]; [reflexivity|].
  destruct (g y); reflexivity.
Qed.

(** X15.  [list_members] asks for the members' route followed by the
    query string of the parameters that were given: the pairs are joined
    by ampersands with none left at the end, and without parameters the
    route has no question mark. *)
Theorem list_members_query depth (g : Guild number) limit after (w : world) :
  let route :=
    "/guilds/" +:+ py_str (guild_id g) +:+ "/members"
    +:+ query_string (clear_postdata [("limit", limit); ("after", after)]) in
  exists new,
    history (list_members depth g limit after w).2 = history w ++ new
    /\ Forall (fun req =>
                req_method req = "GET"
                /\ req_url req = construct_url API_URL route)
              (requests new).
Proof.
  intros route. unfold list_members.
  change "/members?" with ("/members" +:+ "?").
  rewrite members_endpoint. fold route.
  rewrite (wrapped_world _ iterate).
  match goal with
  | |- context [send_request ?d ?m ?r ?dt ?e ?x ?b ?h w] =>
      destruct (send_request_requests d m r dt e x b h w)
        as (new & n & req & Hhist & Hreqs & Hmethod & Hurl & _)
  end.
  exists new. split; [exact Hhist|]. rewrite Hreqs.
  apply Forall_replicate. split; assumption.
Qed.

(** X16.  [search_members] builds its route in the same way, on the
    search route. *)
Theorem search_members_query depth (g : Guild number) query limit (w : world) :
  let route :=
    "/guilds/" +:+ py_str (guild_id g) +:+ "/members/search"
    +:+ query_string (clear_postdata [("query", query); ("limit", limit)]) in
  exists new,
    history (search_members depth g query limit w).2 = history w ++ new
    /\ Forall (fun req =>
                req_method req = "GET"
                /\ req_url req = construct_url API_URL route)
              (requests new).
Proof.
  intros route. unfold search_members.
  change "/members/search?" with ("/members/search" +:+ "?").
  rewrite members_endpoint. fold route.
  rewrite (wrapped_world _ iterate).
  match goal with
  | |- context [send_request ?d ?m ?r ?dt ?e ?x ?b ?h w] =>
      destruct (send_request_requests d m r dt e x b h w)
        as (new & n & req & Hhist & Hreqs & Hmethod & Hurl & _)
  end.
  exists new. split; [exact Hhist|]. rewrite Hreqs.
  apply Forall_replicate. split; assumption.
Qed.

(** X17.  When the server answers [list_members] with an empty body,
    [send_request] returns [None] and the loop over the members raises
    [TypeError]. *)
Theorem list_members_of_empty_body depth (g : Guild number) limit after
    (w : world) res :
  let route :=
    "/guilds/" +:+ py_str (guild_id g) +:+ "/members"
    +:+ query_string (clear_postdata [("limit", limit); ("after", after)]) in
  urlopen (length (requests (history w)))
          (request_of "GET" route PNone None (self w)) = Returned res ->
  status res <> 429 ->
  read res = EmptyString ->
  (list_members (S depth) g limit after w).1 = Raise TypeError.
Proof.
  intros route Hres Hstatus Hempty. unfold list_members.
  change "/members?" with ("/members" +:+ "?").
  rewrite members_endpoint. fold route.
  rewrite bind_run, send_request_S. cbn [dumped]. cbv zeta. rewrite Hres.
  cbn [response_of]. unfold decoded. rewrite Hempty.
  apply Z.eqb_neq in Hstatus. rewrite Hstatus. cbn [andb failed orb].
  repeat case_match; reflexivity.
Qed.

(** X18.  [get_ban] looks at the code the error was built with, which
    is the [code] entry of the response body and not the HTTP status:
    when the transport fails with a status other than 429 and a body
    that holds [code] and [message], [get_ban] returns [False] if that
    code equals 404 and raises the [DiscordHTTPError] otherwise. *)
Theorem get_ban_dispatches_on_body_code depth (g : Guild number) m (w : world)
    res body code message :
  let route :=
    "/guilds/" +:+ py_str (guild_id g) +:+ "/bans/" +:+ py_str (member_id m) in
  urlopen (length (requests (history w)))
          (request_of "GET" route PNone None (self w)) = RaisedHTTPError res ->
  status res <> 429 ->
  decoded res = Some body ->
  getitem body "code" = inr code ->
  getitem body "message" = inr message ->
  (get_ban (S depth) g m w).1
  = if code_is_404 code then Return (JBool false)
    else Raise (DiscordHTTPError code message res).
Proof.
  intros route Hres Hstatus Hbody Hcode Hmessage. unfold get_ban. fold route.
  rewrite send_request_S. cbn [dumped]. cbv zeta. rewrite Hres.
  cbn [response_of]. rewrite Hbody. apply Z.eqb_neq in Hstatus. rewrite Hstatus.
  cbn [andb]. unfold failed. rewrite orb_true_r, Hcode, Hmessage.
  destruct (code_is_404 code); reflexivity.
Qed.

(** X19.  A failure whose body is empty does not make [get_ban] return
    [False]: the [TypeError] of [send_request] is not caught. *)
Theorem get_ban_of_empty_error_body depth (g : Guild number) m (w : world)
    res :
  let route :=
    "/guilds/" +:+ py_str (guild_id g) +:+ "/bans/" +:+ py_str (member_id m) in
  urlopen (length (requests (history w)))
          (request_of "GET" route PNone None (self w)) = RaisedHTTPError res ->
  status res <> 429 ->
  read res = EmptyString ->
  (get_ban (S depth) g m w).1 = Raise TypeError.
Proof.
  intros route Hres Hstatus Hempty. unfold get_ban. fold route.
  rewrite send_request_S. cbn [dumped]. cbv zeta. rewrite Hres.
  cbn [response_of]. unfold decoded. rewrite Hempty. apply Z.eqb_neq in Hstatus.
  rewrite Hstatus. cbn [andb]. unfold failed. rewrite orb_true_r.
  reflexivity.
Qed.

End GuildProperties.

(** ** The further properties on the mock platform *)

(** No route to the server. *)
Lemma transport_error_propagates_witness :
  exists w',
    send_request (outside := answering RaisedURLError) 3 "GET" "/users/123"
                 PNone None true None None world0 = (Raise URLError, w')
    /\ history w' = [EvCheck "/users/123"; EvUrlopen get_user_request]
    /\ ratelimit_handler (self w')
       = check "/users/123" (ratelimit_handler (self world0)).
Proof.
  apply (transport_error_propagates (outside := answering RaisedURLError) 2
           "GET" "/users/123" PNone PNone None true None None world0).
  - reflexivity.
  - reflexivity.
Defined.

(** A 429 that a proxy answers in HTML. *)
Lemma undecodable_body_raises_witness :
  exists w',
    send_request (outside := answering (failing 429 body_html)) 3 "GET"
                 "/users/123" PNone None true None None world0
    = (Raise JSONDecodeError, w')
    /\ history w' = [EvCheck "/users/123"; EvUrlopen get_user_request]
    /\ ratelimit_handler (self w')
       = check "/users/123" (ratelimit_handler (self world0)).
Proof.
  apply (undecodable_body_raises (outside := answering (failing 429 body_html))
           2 "GET" "/users/123" PNone PNone None true None None world0
           {| status := 429; read := body_html; headers_get := no_headers |}
           true).
  - reflexivity.
  - reflexivity.
  - discriminate.
  - reflexivity.
Defined.

Lemma throttle_without_body_raises_witness :
  exists w',
    send_request (outside := answering (failing 429 EmptyString)) 3 "GET"
                 "/users/123" PNone None true None None world0
    = (Raise TypeError, w')
    /\ history w' = [EvCheck "/users/123"; EvUrlopen get_user_request].
Proof.
  apply (throttle_without_body_raises
           (outside := answering (failing 429 EmptyString))
           2 "GET" "/users/123" PNone PNone None true None None world0
           {| status := 429; read := EmptyString; headers_get := no_headers |}
           true).
  - reflexivity.
  - reflexivity.
  - reflexivity.
  - reflexivity.
Defined.


Lemma error_body_without_keys_raises_witness :
  (send_request (library := library_2)
                (outside := answering (failing 500 body_object)) 1 "GET"
                "/users/123" PNone None true None None world0).1
  = Raise (KeyError "code").
Proof.
  apply (error_body_without_keys_raises (library := library_2)
           (outside := answering (failing 500 body_object))
           0 "GET" "/users/123" PNone PNone None None None world0
           {| status := 500; read := body_object; headers_get := no_headers |}
           true []).
  - reflexivity.
  - reflexivity.
  - cbn. lia.
  - reflexivity.
  - left. reflexivity.
  - left. reflexivity.
Defined.

(** An unknown user costs one request. *)
Lemma other_status_is_not_retried_witness :
  requests (history (send_request (outside := unknown_user) 5 "GET"
                                  "/users/123" PNone None true None None
                                  world0).2)
  = [get_user_request].
Proof.
  apply (other_status_is_not_retried (outside := unknown_user) 4 "GET"
           "/users/123" PNone PNone None true None None world0 res_unknown
           true).
  - reflexivity.
  - reflexivity.
  - cbn. lia.
Defined.



Lemma list_members_of_empty_body_witness :
  (list_members (outside := answering no_content) 1 guild_5 (PNum 10) EMPTY
                world0).1 = Raise TypeError.
Proof.
  apply (list_members_of_empty_body (outside := answering no_content) 0
           guild_5 (PNum 10) EMPTY world0
           {| status := 204; read := EmptyString;
              headers_get := no_headers |}).
  - reflexivity.
  - cbn. lia.
  - reflexivity.
Defined.

(** The server's 404 for a ban that does not exist carries the code
    10026: [get_ban] raises. *)
Lemma get_ban_dispatches_on_body_code_witness :
  (get_ban (library := library_2)
           (outside := answering (failing 404 body_unknown_ban)) 1 guild_5
           (ANotMember (PStr "9")) world0).1
  = Raise (DiscordHTTPError (JNum 10026) (JStr "Unknown Ban")
             {| status := 404; read := body_unknown_ban;
                headers_get := no_headers |}).
Proof.
  assert (Hstatus : 404 <> 429) by lia.
  exact (get_ban_dispatches_on_body_code (library := library_2)
           (outside := answering (failing 404 body_unknown_ban)) 0 guild_5
           (ANotMember (PStr "9")) world0
           {| status := 404; read := body_unknown_ban;
              headers_get := no_headers |}
           (JDict [("code", JNum 10026); ("message", JStr "Unknown Ban")])
           (JNum 10026) (JStr "Unknown Ban")
           eq_refl Hstatus eq_refl eq_refl eq_refl).
Defined.

Lemma get_ban_of_empty_error_body_witness :
  (get_ban (outside := answering (failing 404 EmptyString)) 1 guild_5
           (AMember (PStr "9")) world0).1 = Raise TypeError.
Proof.
  apply (get_ban_of_empty_error_body
           (outside := answering (failing 404 EmptyString)) 0 guild_5
           (AMember (PStr "9")) world0
           {| status := 404; read := EmptyString;
              headers_get := no_headers |}).
  - reflexivity.
  - cbn. lia.
  - reflexivity.
Defined.

(** [get_ban] returns [False] when the body's own code is 404. *)
Example get_ban_false :
  (get_ban (library := library_2)
           (outside := answering (failing 404 body_404)) 1 guild_5
           (ANotMember (PStr "9")) world0).1 = Return (JBool false).
Proof. vm_compute. reflexivity. Qed.

(** The routes of [list_members]. *)
Example list_members_routes :
  let url limit after :=
    map req_url
        (requests (history (list_members (outside := answering no_content) 1
                                         guild_5 limit after world0).2)) in
  url EMPTY EMPTY = ["https://discord.com/api/v9/guilds/5/members"]
  /\ url (PNum 10) EMPTY
     = ["https://discord.com/api/v9/guilds/5/members?limit=10"]
  /\ url (PNum 10) (PStr "42")
     = ["https://discord.com/api/v9/guilds/5/members?limit=10&after=42"]
  /\ url PNone EMPTY
     = ["https://discord.com/api/v9/guilds/5/members?limit=None"].
Proof. cbv zeta. repeat split; vm_compute; reflexivity. Qed.
